(** * learn_runner: making and running an Experiment

    A shallow embedding of [learn/python/learn/learn_runner.py].

    The runner is a thin dispatcher: it validates its three arguments, calls
    the user supplied builder, checks what came back, looks a member up by
    name and calls it.  Everything it touches is a Python object owned by
    somebody else, so the embedding is parametric in the behaviour of foreign
    callables ([invoke]) and records what the runner does to the outside
    world (calls it makes, lines it logs) in a trace. *)

From Stdlib Require Import ZArith.
From stdpp Require Import base option list sorting gmap strings.

Set Warnings "-register-all".
Local Open Scope Z_scope.

(** ** Python values and objects *)

(** Objects live in a heap and are referred to by address, so that two
    references to one function or one bound method are equal as values
    (Python's [is]). *)
Definition addr := positive.

Inductive value : Type :=
  | VNone
  | VBool (b : bool)
  | VInt (n : Z)
  | VStr (s : string)
  | VList (l : list value)
  | VObj (a : addr).

(** The type of a value as [type(x)] reports it.  A class carries its name and
    the names of its proper ancestors. *)
Inductive pytype : Type :=
  | TNoneType
  | TBool
  | TInt
  | TStr
  | TList
  | TClass (name : string) (bases : list string).

(** A heap object: its class, whether it can be called, the names its
    [__dir__] reports, and the members that [hasattr] and [getattr] can read
    (own and inherited alike).  The two are kept apart, as Python keeps them:
    a name can be reported without being readable (a slot that was never set,
    a property that raises [AttributeError]), and a member can be readable
    without being reported. *)
Record object : Type := Object {
  obj_type : pytype;
  obj_callable : bool;
  obj_dir : list string;
  obj_attrs : gmap string value
}.

Definition heap := gmap addr object.

(** ** Exceptions *)

Inductive exn_class : Type :=
  | ValueError
  | TypeError
  | AttributeError
  | OtherError (name : string).

(** The argument of a ['...%s...' % x] message, kept symbolic. *)
Inductive fmtarg : Type :=
  | FValue (v : value)
  | FType (t : pytype).

Record pyexn : Type := PyExn {
  exn_cls : exn_class;
  exn_fmt : string;
  exn_arg : option fmtarg
}.

Inductive outcome (A : Type) : Type :=
  | Ret (a : A)
  | Raise (e : pyexn).
Arguments Ret {A} a.
Arguments Raise {A} e.

(** ** What the runner does to the world *)

Inductive event : Type :=
  | EvCall (callee : value) (args : list value) (kwargs : list (string * value))
  | EvLogError (fmt : string) (arg : value).

Record state : Type := State {
  st_heap : heap;
  st_trace : list event
}.

(** ** The monad of the embedding: state and exceptions *)

Definition M (A : Type) : Type := state → outcome A * state.

Definition ret {A} (a : A) : M A := λ s, (Ret a, s).

Definition raise {A} (e : pyexn) : M A := λ s, (Raise e, s).

Definition bind {A B} (m : M A) (k : A → M B) : M B :=
  λ s, match m s with
       | (Ret a, s') => k a s'
       | (Raise e, s') => (Raise e, s')
       end.

Definition get_heap : M heap := λ s, (Ret (st_heap s), s).

Definition emit (ev : event) : M unit :=
  λ s, (Ret tt, State (st_heap s) (st_trace s ++ [ev])).

Declare Scope py_scope.
Delimit Scope py_scope with py.
Notation "'let!' x ':=' m 'in' k" := (bind m (λ x, k))
  (at level 10, x name, m at level 100, k at level 200) : py_scope.
Notation "'do!' m 'in' k" := (bind m (λ _, k))
  (at level 10, m at level 100, k at level 200) : py_scope.

Local Open Scope py_scope.

(** ** Builtins *)

(** [bool(x)], as [not x] uses it: [None], [False], zero, the empty string and
    the empty list are falsy; heap objects are truthy. *)
Definition truthy (v : value) : bool :=
  match v with
  | VNone => false
  | VBool b => b
  | VInt n => negb (n =? 0)
  | VStr s => negb (bool_decide (s = EmptyString))
  | VList l => negb (bool_decide (l = []))
  | VObj _ => true
  end.

Definition type_of (h : heap) (v : value) : pytype :=
  match v with
  | VNone => TNoneType
  | VBool _ => TBool
  | VInt _ => TInt
  | VStr _ => TStr
  | VList _ => TList
  | VObj a =>
      match h !! a with
      | Some o => obj_type o
      | None => TClass "object" []
      end
  end.

Definition is_callable (h : heap) (v : value) : bool :=
  match v with
  | VObj a =>
      match h !! a with
      | Some o => obj_callable o
      | None => false
      end
  | _ => false
  end.

(** [isinstance(x, Experiment)]: the class of [x] is [Experiment] or derives
    from it. *)
Definition Experiment : string := "Experiment".

Definition is_Experiment (h : heap) (v : value) : bool :=
  match type_of h v with
  | TClass name bases => bool_decide (Experiment ∈ name :: bases)
  | _ => false
  end.

(** The members of a value that can be read.  Only heap objects are given
    members: the runner looks members up on [Experiment] instances alone.
    [hasattr] and [getattr] read this table; reading a name that is not in it
    raises [AttributeError], and reading has no other effect. *)
Definition attrs_of (h : heap) (v : value) : gmap string value :=
  match v with
  | VObj a =>
      match h !! a with
      | Some o => obj_attrs o
      | None => ∅
      end
  | _ => ∅
  end.

(** The names the [__dir__] of a value reports. *)
Definition dir_of (h : heap) (v : value) : list string :=
  match v with
  | VObj a =>
      match h !! a with
      | Some o => obj_dir o
      | None => []
      end
  | _ => []
  end.

(** [x.startswith(p)] *)
Definition startswith (x p : string) : bool := String.prefix p x.

Definition callable (v : value) : M bool :=
  let! h := get_heap in ret (is_callable h v).

Definition isinstance_Experiment (v : value) : M bool :=
  let! h := get_heap in ret (is_Experiment h v).

Definition type (v : value) : M pytype :=
  let! h := get_heap in ret (type_of h v).

Definition hasattr (obj name : value) : M bool :=
  match name with
  | VStr x =>
      let! h := get_heap in ret (bool_decide (is_Some (attrs_of h obj !! x)))
  | _ => raise (PyExn TypeError "hasattr(): attribute name must be string" None)
  end.

Definition getattr (obj name : value) : M value :=
  match name with
  | VStr x =>
      let! h := get_heap in
      match attrs_of h obj !! x with
      | Some v => ret v
      | None =>
          raise (PyExn AttributeError "object has no attribute %s" (Some (FValue name)))
      end
  | _ => raise (PyExn TypeError "getattr(): attribute name must be string" None)
  end.

(** [dir(x)]: the reported names, sorted. *)
Definition dir (obj : value) : M (list string) :=
  let! h := get_heap in ret (merge_sort String.le (dir_of h obj)).

(** [logging.error(fmt, arg)] *)
Definition logging_error (fmt : string) (arg : value) : M unit :=
  emit (EvLogError fmt arg).

(** A list comprehension [[x for x in l if p(x)]] whose filter may raise. *)
Fixpoint comprehension {A} (p : A → M bool) (l : list A) : M (list A) :=
  match l with
  | [] => ret []
  | x :: l' =>
      let! keep := p x in
      let! rest := comprehension p l' in
      ret (if keep then x :: rest else rest)
  end.

Section Runner.

(** What a foreign callable does when it is called: its result (or the
    exception it raises) and the heap it leaves behind. *)
Variable invoke :
  value → list value → list (string * value) → heap → outcome value * heap.

(** Calling [f] with positional and keyword arguments. *)
Definition call (f : value) (args : list value) (kwargs : list (string * value))
  : M value :=
  let! c := callable f in
  if negb c then
    raise (PyExn TypeError "%s object is not callable" (Some (FValue f)))
  else
    do! emit (EvCall f args kwargs) in
    λ s, let '(r, h') := invoke f args kwargs (st_heap s) in
         (r, State h' (st_trace s)).

(** [learn_runner._valid_tasks] *)
Definition _valid_tasks (experiment : value) : M (list string) :=
  let! names := dir experiment in
  comprehension
    (λ x, let! member := getattr experiment (VStr x) in
          let! c := callable member in
          ret (c && negb (startswith x "_")))
    names.

Definition dquote : string := String (Ascii.ascii_of_nat 34) EmptyString.

(** [learn_runner.run] *)
Definition run (experiment_fn output_dir schedule : value) : M value :=
  if negb (truthy output_dir) then
    raise (PyExn ValueError "Must specify an output directory" None)
  else if negb (truthy schedule) then
    raise (PyExn ValueError "Must specify a schedule" None)
  else
    let! c := callable experiment_fn in
    if negb c then
      raise (PyExn TypeError
               ("Experiment builder " +:+ dquote +:+ "%s" +:+ dquote +:+ " is not callable.")
               (Some (FValue experiment_fn)))
    else
      (* Call the builder *)
      let! experiment := call experiment_fn [] [("output_dir", output_dir)] in
      let! ok := isinstance_Experiment experiment in
      if negb ok then
        let! t := type experiment in
        raise (PyExn TypeError
                 "Experiment builder did not return an Experiment instance, got %s instead."
                 (Some (FType t)))
      else
        (* Execute the schedule *)
        let! has := hasattr experiment schedule in
        if negb has then
          do! logging_error "Schedule references non-existent task %s" schedule in
          let! valid_tasks := _valid_tasks experiment in
          do! logging_error "Allowed values for this experiment are: %s"
                        (VList (VStr <$> valid_tasks)) in
          raise (PyExn ValueError "Schedule references non-existent task %s"
                   (Some (FValue schedule)))
        else
          let! task := getattr experiment schedule in
          let! c := callable task in
          if negb c then
            do! logging_error "Schedule references non-callable member %s" schedule in
            let! valid_tasks := _valid_tasks experiment in
            do! logging_error "Allowed values for this experiment are: %s"
                          (VList (VStr <$> valid_tasks)) in
            raise (PyExn TypeError "Schedule references non-callable member %s"
                     (Some (FValue schedule)))
          else
            call task [] [].

End Runner.

(** ** Reading a trace *)

Global Instance value_eq_dec : EqDecision value.
Proof.
  refine (fix go (v w : value) {struct v} : Decision (v = w) :=
    match v, w with
    | VNone, VNone => left _
    | VBool a, VBool b => cast_if (decide (a = b))
    | VInt a, VInt b => cast_if (decide (a = b))
    | VStr a, VStr b => cast_if (decide (a = b))
    | VList l, VList k => cast_if (@list_eq_dec _ go l k)
    | VObj a, VObj b => cast_if (decide (a = b))
    | _, _ => right _
    end); abstract congruence.
Defined.

(** Whether an event is a call of [f], whatever the arguments. *)
Definition is_call_of (f : value) (ev : event) : bool :=
  match ev with
  | EvCall g _ _ => bool_decide (g = f)
  | EvLogError _ _ => false
  end.

(** How many times a trace calls [f]. *)
Definition calls_of (f : value) (t : list event) : nat :=
  length (List.filter (is_call_of f) t).



(** The test [_valid_tasks] puts a member name to, read off the heap. *)
Definition listed (h : heap) (obj : value) (x : string) : bool :=
  match attrs_of h obj !! x with
  | Some member => is_callable h member && negb (startswith x "_")
  | None => false
  end.

(** Whether every name [dir] reports for a value can be read. *)
Definition dir_readable (h : heap) (obj : value) : bool :=
  forallb (λ x, bool_decide (is_Some (attrs_of h obj !! x))) (dir_of h obj).

(** What the comprehension of [_valid_tasks] comes to on a list of names: it
    stops at the first name that cannot be read. *)
Fixpoint listing (h : heap) (obj : value) (names : list string)
  : outcome (list string) :=
  match names with
  | [] => Ret []
  | x :: names' =>
      match attrs_of h obj !! x with
      | None =>
          Raise (PyExn AttributeError "object has no attribute %s"
                   (Some (FValue (VStr x))))
      | Some member =>
          match listing h obj names' with
          | Ret rest =>
              Ret (if is_callable h member && negb (startswith x "_")
                   then x :: rest else rest)
          | Raise e => Raise e
          end
      end
  end.

(** ** A small world to run the runner in *)

Module Demo.

(** The builder lives at address 1.  Calling it with [output_dir] creates an
    experiment at address 2 whose members are the bound methods [train]
    (address 3) and [_private] (address 4), the non-callable [train_steps],
    and [again], which is bound to the builder itself. *)
Definition function : pytype := TClass "function" ["object"].
Definition method : pytype := TClass "method" ["object"].

Definition builder : value := VObj 1%positive.
Definition handle : value := VObj 2%positive.

Definition my_experiment : object :=
  Object (TClass "MyExperiment" ["Experiment"; "object"]) false
    ["train"; "train_steps"; "again"; "_private"]
    (<["train" := VObj 3%positive]> (<["_private" := VObj 4%positive]>
      (<["train_steps" := VInt 1000]> (<["again" := builder]> ∅)))).

Definition heap0 : heap := <[1%positive := Object function true [] ∅]> ∅.

Definition built (h : heap) : heap :=
  <[2%positive := my_experiment]>
    (<[3%positive := Object method true [] ∅]>
      (<[4%positive := Object method true [] ∅]> h)).

Definition invoke (f : value) (args : list value) (kwargs : list (string * value))
    (h : heap) : outcome value * heap :=
  match f, args, kwargs with
  | VObj 1%positive, [], [(k, _)] =>
      if bool_decide (k = "output_dir") then (Ret handle, built h)
      else (Raise (PyExn TypeError "unexpected keyword argument %s" (Some (FValue (VStr k)))), h)
  | VObj 1%positive, [], [] => (Ret VNone, h)
  | VObj 3%positive, [], [] => (Ret (VStr "trained"), h)
  | VObj 4%positive, [], [] => (Ret (VStr "x"), h)
  | _, _, _ => (Raise (PyExn TypeError "bad call of %s" (Some (FValue f))), h)
  end.

(** A builder that hands back a string instead of an experiment. *)
Definition invoke_str (f : value) (args : list value) (kwargs : list (string * value))
    (h : heap) : outcome value * heap :=
  (Ret (VStr "not an experiment"), h).

Definition start : state := State heap0 [].

(** Foreign code that fails: a builder that raises, and a builder that works
    but whose experiment raises from every method. *)
Definition boom : pyexn := PyExn (OtherError "RuntimeError") "boom" None.

Definition invoke_builder_raises (f : value) (args : list value)
    (kwargs : list (string * value)) (h : heap) : outcome value * heap :=
  (Raise boom, h).

Definition invoke_task_raises (f : value) (args : list value)
    (kwargs : list (string * value)) (h : heap) : outcome value * heap :=
  match f, kwargs with
  | VObj 1%positive, [(_, _)] => (Ret handle, built h)
  | _, _ => (Raise boom, h)
  end.

(** An experiment with a slot that was never set: [dir] reports [ghost], but
    [ghost] cannot be read. *)
Definition slotted : value := VObj 5%positive.

Definition slotted_experiment : object :=
  Object (TClass "SlottedExperiment" ["Experiment"; "object"]) false
    ["ghost"; "train"; "train_steps"]
    (<["train" := VObj 3%positive]> (<["train_steps" := VInt 1000]> ∅)).

Definition built_slotted (h : heap) : heap :=
  <[5%positive := slotted_experiment]>
    (<[3%positive := Object method true [] ∅]> h).


End Demo.

(** * Properties *)

(** ** Stepping through the monad *)

Local Arguments is_callable : simpl never.
Local Arguments is_Experiment : simpl never.
Local Arguments attrs_of : simpl never.
Local Arguments type_of : simpl never.
Local Arguments truthy : simpl never.

Ltac py_unfold :=
  unfold run, call, callable, isinstance_Experiment, type, hasattr, getattr,
    logging_error, bind, ret, raise, get_heap, emit; simpl.

(** Unfold the runner and feed it every equation at hand, one branch at a
    time. *)
Ltac py_feed :=
  simpl;
  repeat (match goal with
          | H : ?l = _ |- context [?l] => rewrite H
          end; simpl).

Ltac py_run := py_unfold; py_feed.


Lemma StronglySorted_filter {A} (R : relation A) (P : A → Prop)
    `{∀ x, Decision (P x)} (l : list A) :
  StronglySorted R l → StronglySorted R (filter P l).
Proof.
  induction 1 as [|x l Hl IH Hx]; [constructor|].
  rewrite filter_cons. case_decide; [|done].
  constructor; [done|]. apply Forall_forall. intros y Hy.
  apply list_elem_of_filter in Hy as [_ Hy].
  by apply (proj1 (Forall_forall _ _) Hx).
Qed.

(** The comprehension of [_valid_tasks] reads the heap and nothing else. *)
Lemma comprehension_listing (experiment : value) (names : list string)
    (s : state) :
  comprehension
    (λ x, let! member := getattr experiment (VStr x) in
          let! c := callable member in
          ret (c && negb (startswith x "_")))
    names s
  = (listing (st_heap s) experiment names, s).
Proof.
  set (p := λ x : string, _).
  assert (Hp : ∀ x,
            p x s
            = (match attrs_of (st_heap s) experiment !! x with
               | Some member =>
                   Ret (is_callable (st_heap s) member && negb (startswith x "_"))
               | None =>
                   Raise (PyExn AttributeError "object has no attribute %s"
                            (Some (FValue (VStr x))))
               end, s)).
  { intros x. unfold p. py_unfold.
    by destruct (attrs_of (st_heap s) experiment !! x). }
  induction names as [|x names IH]; [reflexivity|].
  cbn [comprehension listing]. unfold bind at 1. rewrite Hp.
  destruct (attrs_of (st_heap s) experiment !! x) as [member|]; [|reflexivity].
  unfold bind at 1. rewrite IH.
  by destruct (listing (st_heap s) experiment names).
Qed.

(** [_valid_tasks] comes to [listing] on the sorted names, in the state it
    started from. *)
Lemma valid_tasks_eval (experiment : value) (s : state) :
  _valid_tasks experiment s
  = (listing (st_heap s) experiment
       (merge_sort String.le (dir_of (st_heap s) experiment)), s).
Proof. rewrite <- comprehension_listing. reflexivity. Qed.

Lemma dir_readable_spec (h : heap) (obj : value) :
  dir_readable h obj = true
  ↔ ∀ x, x ∈ dir_of h obj → is_Some (attrs_of h obj !! x).
Proof.
  unfold dir_readable. rewrite forallb_forall. split.
  - intros H x Hx. apply list_elem_of_In in Hx.
    by apply H, bool_decide_eq_true in Hx.
  - intros H x Hx. apply bool_decide_eq_true, H. by apply list_elem_of_In.
Qed.

(** When the listing returns, every name was readable and the result is the
    names that pass the test. *)
Lemma listing_Ret (h : heap) (obj : value) (names tasks : list string) :
  listing h obj names = Ret tasks →
  tasks = filter (λ x, listed h obj x = true) names
  ∧ ∀ x, x ∈ names → is_Some (attrs_of h obj !! x).
Proof.
  revert tasks. induction names as [|x names IH]; intros tasks; simpl.
  - intros [= <-]. split; [done|]. by intros ? ?%elem_of_nil.
  - destruct (attrs_of h obj !! x) as [member|] eqn:Hx; [|done].
    destruct (listing h obj names) as [rest|e]; [|done].
    destruct (IH rest eq_refl) as [-> Hread]. intros [= <-]. split.
    + assert (Hl : listed h obj x
                   = is_callable h member && negb (startswith x "_"))
        by (unfold listed; by rewrite Hx).
      rewrite filter_cons, Hl.
      destruct (is_callable h member && negb (startswith x "_")); by case_decide.
    + intros y [->|Hy]%elem_of_cons; [by rewrite Hx|by apply Hread].
Qed.

Lemma listing_readable (h : heap) (obj : value) (names : list string) :
  (∀ x, x ∈ names → is_Some (attrs_of h obj !! x)) →
  listing h obj names = Ret (filter (λ x, listed h obj x = true) names).
Proof.
  induction names as [|x names IH]; intros Hread; simpl; [done|].
  destruct (Hread x) as [member Hx]; [by left|]. rewrite Hx.
  rewrite IH by (intros y Hy; apply Hread; by right).
  assert (Hl : listed h obj x
               = is_callable h member && negb (startswith x "_"))
    by (unfold listed; by rewrite Hx).
  rewrite filter_cons, Hl.
  destruct (is_callable h member && negb (startswith x "_")); by case_decide.
Qed.


Lemma valid_tasks_members (h : heap) (obj : value) (x : string) :
  x ∈ filter (λ x, listed h obj x = true) (merge_sort String.le (dir_of h obj))
  ↔ x ∈ dir_of h obj
    ∧ ∃ member, attrs_of h obj !! x = Some member
                ∧ is_callable h member = true ∧ startswith x "_" = false.
Proof.
  rewrite list_elem_of_filter, merge_sort_Permutation. unfold listed. split.
  - intros [Hl Hin]. split; [done|].
    destruct (attrs_of h obj !! x) as [m|]; [|done]. exists m.
    apply andb_true_iff in Hl as [? ?%negb_true_iff]. done.
  - intros (Hin & m & Hm & Hc & Hp). rewrite Hm, Hc, Hp. eauto.
Qed.

Lemma valid_tasks_readable (experiment : value) (s : state) :
  dir_readable (st_heap s) experiment = true →
  _valid_tasks experiment s
  = (Ret (filter (λ x, listed (st_heap s) experiment x = true)
            (merge_sort String.le (dir_of (st_heap s) experiment))), s).
Proof.
  intros Hr. rewrite valid_tasks_eval, listing_readable; [done|].
  intros x Hx. rewrite merge_sort_Permutation in Hx.
  by apply dir_readable_spec.
Qed.

(** ** The listing of valid tasks *)

(** C4, as the spec has it, fails: [dir] reports the name [ghost] for the
    slotted experiment, [ghost] cannot be read, and [_valid_tasks] raises
    [AttributeError] instead of returning a list. *)
Lemma valid_tasks_raises_on_unreadable_name :
  is_Experiment (Demo.built_slotted Demo.heap0) Demo.slotted = true
  ∧ dir_of (Demo.built_slotted Demo.heap0) Demo.slotted
  = ["ghost"; "train"; "train_steps"]
  ∧ attrs_of (Demo.built_slotted Demo.heap0) Demo.slotted !! "ghost" = None
  ∧ (_valid_tasks Demo.slotted (State (Demo.built_slotted Demo.heap0) [])).1
    = Raise (PyExn AttributeError "object has no attribute %s"
               (Some (FValue (VStr "ghost"))))
  ∧ ¬ ∃ tasks,
        (_valid_tasks Demo.slotted (State (Demo.built_slotted Demo.heap0) [])).1
        = Ret tasks.
Proof.
  split; [reflexivity|].
  split; [reflexivity|]. split; [reflexivity|]. split; [reflexivity|].
  intros [tasks H]. vm_compute in H. discriminate.
Qed.

(** C4, as the code has it: on a handle all of whose reported names can be
    read, [_valid_tasks] returns, without touching the world, exactly the
    names [dir] reports that are bound to a callable and do not begin with an
    underscore, in [dir]'s increasing order and without repeating a name that
    [dir] reports once. *)
Theorem valid_tasks_public_callables (experiment : value) (s : state) :
  dir_readable (st_heap s) experiment = true →
  ∃ tasks,
    _valid_tasks experiment s = (Ret tasks, s)
    ∧ (∀ x, x ∈ tasks ↔
         x ∈ dir_of (st_heap s) experiment
         ∧ ∃ member, attrs_of (st_heap s) experiment !! x = Some member
                     ∧ is_callable (st_heap s) member = true
                     ∧ startswith x "_" = false)
    ∧ (NoDup (dir_of (st_heap s) experiment) → NoDup tasks)
    ∧ StronglySorted String.le tasks.
Proof.
  intros Hr. eexists. split; [by apply valid_tasks_readable|]. split; [|split].
  - intros x. apply valid_tasks_members.
  - intros Hnd. apply NoDup_filter. by rewrite merge_sort_Permutation.
  - apply StronglySorted_filter, StronglySorted_merge_sort; apply _.
Qed.

Lemma valid_tasks_public_callables_witness :
  ∃ tasks,
    _valid_tasks Demo.handle (State (Demo.built Demo.heap0) [])
    = (Ret tasks, State (Demo.built Demo.heap0) [])
    ∧ (∀ x, x ∈ tasks ↔
         x ∈ dir_of (Demo.built Demo.heap0) Demo.handle
         ∧ ∃ member, attrs_of (Demo.built Demo.heap0) Demo.handle !! x = Some member
                     ∧ is_callable (Demo.built Demo.heap0) member = true
                     ∧ startswith x "_" = false)
    ∧ (NoDup (dir_of (Demo.built Demo.heap0) Demo.handle) → NoDup tasks)
    ∧ StronglySorted String.le tasks.
Proof.
  apply (valid_tasks_public_callables Demo.handle
           (State (Demo.built Demo.heap0) [])).
  reflexivity.
Defined.

(** ** Argument checks *)

(** C5: an empty [output_dir] raises [ValueError] at once, whatever the
    schedule and the builder and with nothing called or logged; with
    [output_dir] given, an empty [schedule] raises another [ValueError], again
    with nothing called or logged. *)
Theorem run_checks_strings_first invoke (experiment_fn output_dir schedule : value)
    (s : state) :
  (truthy output_dir = false →
   run invoke experiment_fn output_dir schedule s
   = (Raise (PyExn ValueError "Must specify an output directory" None), s))
  ∧ (truthy output_dir = true → truthy schedule = false →
     run invoke experiment_fn output_dir schedule s
     = (Raise (PyExn ValueError "Must specify a schedule" None), s))
  ∧ PyExn ValueError "Must specify an output directory" None
    ≠ PyExn ValueError "Must specify a schedule" None.
Proof.
  split; [|split].
  - intros Hd. unfold run. by rewrite Hd.
  - intros Hd Hs. unfold run. by rewrite Hd, Hs.
  - discriminate.
Qed.

Lemma run_checks_strings_first_witness :
  run Demo.invoke Demo.builder (VStr EmptyString) (VStr EmptyString) Demo.start
  = (Raise (PyExn ValueError "Must specify an output directory" None), Demo.start)
  ∧ run Demo.invoke Demo.builder (VStr "out") (VStr EmptyString) Demo.start
    = (Raise (PyExn ValueError "Must specify a schedule" None), Demo.start).
Proof.
  split.
  - apply (run_checks_strings_first Demo.invoke Demo.builder
             (VStr EmptyString) (VStr EmptyString) Demo.start).
    reflexivity.
  - apply (run_checks_strings_first Demo.invoke Demo.builder
             (VStr "out") (VStr EmptyString) Demo.start); reflexivity.
Defined.

(** C6: with both strings given, a builder that is not callable makes [run]
    raise [TypeError] about that builder; nothing is called or logged. *)
Theorem run_rejects_non_callable_builder invoke
    (experiment_fn output_dir schedule : value) (s : state) :
  truthy output_dir = true →
  truthy schedule = true →
  is_callable (st_heap s) experiment_fn = false →
  ∃ e,
    run invoke experiment_fn output_dir schedule s = (Raise e, s)
    ∧ exn_cls e = TypeError
    ∧ exn_arg e = Some (FValue experiment_fn).
Proof.
  intros Hd Hs Hc. eexists. py_run. split; [reflexivity|]. done.
Qed.

Lemma run_rejects_non_callable_builder_witness :
  ∃ e,
    run Demo.invoke (VInt 3) (VStr "out") (VStr "train") Demo.start
    = (Raise e, Demo.start)
    ∧ exn_cls e = TypeError
    ∧ exn_arg e = Some (FValue (VInt 3)).
Proof.
  apply (run_rejects_non_callable_builder Demo.invoke (VInt 3) (VStr "out")
           (VStr "train") Demo.start); reflexivity.
Defined.

(** ** What the builder returns *)

(** C7: when the builder returns something that is not an [Experiment], [run]
    raises [TypeError] whose message is filled with the type of what was
    returned; the call of the builder is the only thing that happened. *)
Theorem run_rejects_non_experiment invoke
    (experiment_fn output_dir schedule : value) (s : state)
    (experiment : value) (h1 : heap) :
  truthy output_dir = true →
  truthy schedule = true →
  is_callable (st_heap s) experiment_fn = true →
  invoke experiment_fn [] [("output_dir", output_dir)] (st_heap s)
  = (Ret experiment, h1) →
  is_Experiment h1 experiment = false →
  ∃ e,
    run invoke experiment_fn output_dir schedule s
    = (Raise e,
       State h1 (st_trace s ++ [EvCall experiment_fn [] [("output_dir", output_dir)]]))
    ∧ exn_cls e = TypeError
    ∧ exn_arg e = Some (FType (type_of h1 experiment)).
Proof.
  intros Hd Hs Hc Hf He. eexists. py_run. split; [reflexivity|]. done.
Qed.

Lemma run_rejects_non_experiment_witness :
  ∃ e,
    run Demo.invoke_str Demo.builder (VStr "out") (VStr "train") Demo.start
    = (Raise e,
       State Demo.heap0 [EvCall Demo.builder [] [("output_dir", VStr "out")]])
    ∧ exn_cls e = TypeError
    ∧ exn_arg e = Some (FType TStr).
Proof.
  apply (run_rejects_non_experiment Demo.invoke_str Demo.builder (VStr "out")
           (VStr "train") Demo.start (VStr "not an experiment") Demo.heap0);
    reflexivity.
Defined.

(** ** Dispatch *)

(** Once the builder has returned an [Experiment] on which the schedule names
    a callable member, [run] ends by calling that member with no arguments
    and hands back whatever comes out of the call. *)
Lemma run_dispatch invoke (experiment_fn output_dir : value) (x : string)
    (s : state) (experiment : value) (h1 : heap) (task : value)
    (r : outcome value) (h2 : heap) :
  truthy output_dir = true →
  truthy (VStr x) = true →
  is_callable (st_heap s) experiment_fn = true →
  invoke experiment_fn [] [("output_dir", output_dir)] (st_heap s)
  = (Ret experiment, h1) →
  is_Experiment h1 experiment = true →
  attrs_of h1 experiment !! x = Some task →
  is_callable h1 task = true →
  invoke task [] [] h1 = (r, h2) →
  run invoke experiment_fn output_dir (VStr x) s
  = (r, State h2 ((st_trace s
                     ++ [EvCall experiment_fn [] [("output_dir", output_dir)]])
                    ++ [EvCall task [] []])).
Proof.
  intros Hd Hs Hc Hf He Ht Hct Hr. py_run. reflexivity.
Qed.

(** C2: for a non-empty [output_dir], a non-empty [schedule] and a callable
    builder whose result is an [Experiment] with a callable member of that
    name, [run] returns exactly what the member returns when called with no
    arguments. *)
Theorem run_returns_task_result invoke (experiment_fn output_dir : value)
    (x : string) (s : state) (experiment : value) (h1 : heap) (task v : value)
    (h2 : heap) :
  truthy output_dir = true →
  truthy (VStr x) = true →
  is_callable (st_heap s) experiment_fn = true →
  invoke experiment_fn [] [("output_dir", output_dir)] (st_heap s)
  = (Ret experiment, h1) →
  is_Experiment h1 experiment = true →
  attrs_of h1 experiment !! x = Some task →
  is_callable h1 task = true →
  invoke task [] [] h1 = (Ret v, h2) →
  (run invoke experiment_fn output_dir (VStr x) s).1 = Ret v.
Proof.
  intros Hd Hs Hc Hf He Ht Hct Hr.
  by rewrite (run_dispatch invoke _ _ _ _ _ _ _ _ _ Hd Hs Hc Hf He Ht Hct Hr).
Qed.

Lemma run_returns_task_result_witness :
  (run Demo.invoke Demo.builder (VStr "out") (VStr "train") Demo.start).1
  = Ret (VStr "trained").
Proof.
  apply (run_returns_task_result Demo.invoke Demo.builder (VStr "out") "train"
           Demo.start Demo.handle (Demo.built Demo.heap0) (VObj 3%positive)
           (VStr "trained") (Demo.built Demo.heap0)); reflexivity.
Defined.

(** C3, as the code has it: on a handle with callable members [train]
    returning ["trained"] and [_private] returning ["x"], the schedule
    ["train"] returns ["trained"] and the schedule ["_private"] returns ["x"];
    the leading underscore does not stop the dispatch. *)
Theorem run_dispatches_private_member invoke (experiment_fn output_dir : value)
    (s : state) (experiment : value) (h1 : heap) (train private : value)
    (h2 h3 : heap) :
  truthy output_dir = true →
  is_callable (st_heap s) experiment_fn = true →
  invoke experiment_fn [] [("output_dir", output_dir)] (st_heap s)
  = (Ret experiment, h1) →
  is_Experiment h1 experiment = true →
  attrs_of h1 experiment !! "train" = Some train →
  is_callable h1 train = true →
  invoke train [] [] h1 = (Ret (VStr "trained"), h2) →
  attrs_of h1 experiment !! "_private" = Some private →
  is_callable h1 private = true →
  invoke private [] [] h1 = (Ret (VStr "x"), h3) →
  (run invoke experiment_fn output_dir (VStr "train") s).1 = Ret (VStr "trained")
  ∧ (run invoke experiment_fn output_dir (VStr "_private") s).1 = Ret (VStr "x").
Proof.
  intros Hd Hc Hf He Ht Hct Hrt Hp Hcp Hrp. split.
  - by rewrite (run_dispatch invoke _ _ "train" _ _ _ _ _ _
                  Hd eq_refl Hc Hf He Ht Hct Hrt).
  - by rewrite (run_dispatch invoke _ _ "_private" _ _ _ _ _ _
                  Hd eq_refl Hc Hf He Hp Hcp Hrp).
Qed.

Lemma run_dispatches_private_member_witness :
  (run Demo.invoke Demo.builder (VStr "out") (VStr "train") Demo.start).1
  = Ret (VStr "trained")
  ∧ (run Demo.invoke Demo.builder (VStr "out") (VStr "_private") Demo.start).1
    = Ret (VStr "x").
Proof.
  apply (run_dispatches_private_member Demo.invoke Demo.builder (VStr "out")
           Demo.start Demo.handle (Demo.built Demo.heap0)
           (VObj 3%positive) (VObj 4%positive)
           (Demo.built Demo.heap0) (Demo.built Demo.heap0)); reflexivity.
Defined.

(** C3, as the spec has it, fails: in the demo world the handle has a callable
    [_private] returning ["x"], and [run] with schedule ["_private"] returns
    ["x"] instead of raising. *)
Lemma run_private_not_a_lookup_error :
  attrs_of (Demo.built Demo.heap0) Demo.handle !! "_private" = Some (VObj 4%positive)
  ∧ Demo.invoke (VObj 4%positive) [] [] (Demo.built Demo.heap0)
    = (Ret (VStr "x"), Demo.built Demo.heap0)
  ∧ (run Demo.invoke Demo.builder (VStr "out") (VStr "_private") Demo.start).1
    = Ret (VStr "x")
  ∧ ¬ ∃ e, (run Demo.invoke Demo.builder (VStr "out") (VStr "_private")
              Demo.start).1 = Raise e.
Proof.
  split; [reflexivity|]. split; [reflexivity|]. split; [reflexivity|].
  intros [e He]. vm_compute in He. discriminate.
Qed.

(** ** Schedules that cannot be run *)







(** ** How often the builder is called *)

(** C10, as the spec has it, fails: in the demo world the member [again] of
    the handle is the builder itself, so [run] with schedule ["again"] calls
    the builder a second time, with no arguments. *)
Lemma run_calls_builder_twice :
  truthy (VStr "out") = true
  ∧ truthy (VStr "again") = true
  ∧ is_callable Demo.heap0 Demo.builder = true
  ∧ st_trace (run Demo.invoke Demo.builder (VStr "out") (VStr "again") Demo.start).2
    = [EvCall Demo.builder [] [("output_dir", VStr "out")];
       EvCall Demo.builder [] []]
  ∧ calls_of Demo.builder
      (st_trace (run Demo.invoke Demo.builder (VStr "out") (VStr "again")
                   Demo.start).2) ≠ 1%nat.
Proof.
  split; [reflexivity|]. split; [reflexivity|]. split; [reflexivity|].
  split; [reflexivity|]. vm_compute. discriminate.
Qed.

(** C10, as the code has it: for a non-empty [output_dir], a non-empty
    [schedule] and a callable builder, the first thing [run] does to the world
    is to call the builder with the keyword argument [output_dir]; after that
    it calls the builder again on no path that fails before the dispatch, and
    on the dispatch only if the member the schedule names is the builder
    itself, which is then called with no arguments. *)
Theorem run_calls_builder_once invoke (experiment_fn output_dir schedule : value)
    (s : state) :
  truthy output_dir = true →
  truthy schedule = true →
  is_callable (st_heap s) experiment_fn = true →
  ∃ rest,
    st_trace (run invoke experiment_fn output_dir schedule s).2
    = st_trace s ++ EvCall experiment_fn [] [("output_dir", output_dir)] :: rest
    ∧ (calls_of experiment_fn rest = 0%nat
       ∨ ∃ experiment h1 x,
           invoke experiment_fn [] [("output_dir", output_dir)] (st_heap s)
           = (Ret experiment, h1)
           ∧ schedule = VStr x
           ∧ attrs_of h1 experiment !! x = Some experiment_fn
           ∧ rest = [EvCall experiment_fn [] []]).
Proof.
  intros Hd Hs Hc. py_run.
  destruct (invoke experiment_fn [] [("output_dir", output_dir)] (st_heap s))
    as [[experiment|e] h1] eqn:Hf; py_feed; [|by exists []; auto].
  destruct (is_Experiment h1 experiment) eqn:He; py_feed; [|by exists []; auto].
  destruct schedule as [| | |x| |]; py_feed; try (by exists []; auto).
  destruct (attrs_of h1 experiment !! x) as [task|] eqn:Ht; py_feed.
  - destruct (is_callable h1 task) eqn:Hct; py_feed.
    + destruct (invoke task [] [] h1) as [r h2]; py_feed.
      exists [EvCall task [] []]. rewrite <- app_assoc. split; [done|].
      destruct (decide (task = experiment_fn)) as [->|Hne].
      * right. by exists experiment, h1, x.
      * left. unfold calls_of. simpl. by rewrite bool_decide_false.
    + rewrite valid_tasks_eval.
      simpl.
      match goal with
      | |- context [listing ?h ?o ?l] => destruct (listing h o l)
      end; simpl; eexists;
        rewrite <- ?app_assoc; simpl; (split; [reflexivity|]); by left.
  - rewrite valid_tasks_eval.
    simpl.
    match goal with
    | |- context [listing ?h ?o ?l] => destruct (listing h o l)
    end; simpl; eexists;
      rewrite <- ?app_assoc; simpl; (split; [reflexivity|]); by left.
Qed.

Lemma run_calls_builder_once_witness :
  ∃ rest,
    st_trace (run Demo.invoke Demo.builder (VStr "out") (VStr "train") Demo.start).2
    = [] ++ EvCall Demo.builder [] [("output_dir", VStr "out")] :: rest
    ∧ (calls_of Demo.builder rest = 0%nat
       ∨ ∃ experiment h1 x,
           Demo.invoke Demo.builder [] [("output_dir", VStr "out")] Demo.heap0
           = (Ret experiment, h1)
           ∧ VStr "train" = VStr x
           ∧ attrs_of h1 experiment !! x = Some Demo.builder
           ∧ rest = [EvCall Demo.builder [] []]).
Proof.
  apply (run_calls_builder_once Demo.invoke Demo.builder (VStr "out")
           (VStr "train") Demo.start); reflexivity.
Defined.

(** * Further properties of the runner *)

(** * Further properties of the runner *)

(** ** Exceptions of foreign code *)

(** X1: an exception raised by the builder leaves [run] as it is; the call of
    the builder is all that happened, nothing is logged. *)
Theorem run_propagates_builder_error invoke
    (experiment_fn output_dir schedule : value) (s : state) (e : pyexn)
    (h1 : heap) :
  truthy output_dir = true →
  truthy schedule = true →
  is_callable (st_heap s) experiment_fn = true →
  invoke experiment_fn [] [("output_dir", output_dir)] (st_heap s)
  = (Raise e, h1) →
  run invoke experiment_fn output_dir schedule s
  = (Raise e,
     State h1 (st_trace s ++ [EvCall experiment_fn [] [("output_dir", output_dir)]])).
Proof. intros Hd Hs Hc Hf. py_run. reflexivity. Qed.

Lemma run_propagates_builder_error_witness :
  run Demo.invoke_builder_raises Demo.builder (VStr "out") (VStr "train") Demo.start
  = (Raise Demo.boom,
     State Demo.heap0 ([] ++ [EvCall Demo.builder [] [("output_dir", VStr "out")]])).
Proof.
  apply (run_propagates_builder_error Demo.invoke_builder_raises Demo.builder
           (VStr "out") (VStr "train") Demo.start Demo.boom Demo.heap0);
    reflexivity.
Defined.

(** X2: an exception raised by the scheduled member leaves [run] as it is; the
    trace holds the two calls and no log line. *)
Theorem run_propagates_task_error invoke (experiment_fn output_dir : value)
    (x : string) (s : state) (experiment : value) (h1 : heap) (task : value)
    (e : pyexn) (h2 : heap) :
  truthy output_dir = true →
  truthy (VStr x) = true →
  is_callable (st_heap s) experiment_fn = true →
  invoke experiment_fn [] [("output_dir", output_dir)] (st_heap s)
  = (Ret experiment, h1) →
  is_Experiment h1 experiment = true →
  attrs_of h1 experiment !! x = Some task →
  is_callable h1 task = true →
  invoke task [] [] h1 = (Raise e, h2) →
  run invoke experiment_fn output_dir (VStr x) s
  = (Raise e,
     State h2 (st_trace s
                 ++ [EvCall experiment_fn [] [("output_dir", output_dir)];
                     EvCall task [] []])).
Proof.
  intros Hd Hs Hc Hf He Ht Hct Hr.
  rewrite (run_dispatch invoke _ _ _ _ _ _ _ _ _ Hd Hs Hc Hf He Ht Hct Hr).
  by rewrite <- app_assoc.
Qed.

Lemma run_propagates_task_error_witness :
  run Demo.invoke_task_raises Demo.builder (VStr "out") (VStr "train") Demo.start
  = (Raise Demo.boom,
     State (Demo.built Demo.heap0)
       ([] ++ [EvCall Demo.builder [] [("output_dir", VStr "out")];
               EvCall (VObj 3%positive) [] []])).
Proof.
  apply (run_propagates_task_error Demo.invoke_task_raises Demo.builder
           (VStr "out") "train" Demo.start Demo.handle (Demo.built Demo.heap0)
           (VObj 3%positive) Demo.boom (Demo.built Demo.heap0)); reflexivity.
Defined.

(** ** Every path through [run] *)

(** Split a goal about [run] into the paths the code can take: one case for
    each test the runner makes and each foreign call, in the order of the
    source. *)
Ltac run_split inv :=
  py_unfold;
  repeat (py_feed;
          match goal with
          | |- context [truthy ?v] => destruct (truthy v) eqn:?
          | |- context [is_callable ?h ?v] => destruct (is_callable h v) eqn:?
          | |- context [inv ?f ?a ?k ?h] =>
              destruct (inv f a k h) as [[?|?] ?] eqn:?
          | |- context [is_Experiment ?h ?v] => destruct (is_Experiment h v) eqn:?
          | |- context [match ?v with
                        | VNone => _ | VBool _ => _ | VInt _ => _
                        | VStr _ => _ | VList _ => _ | VObj _ => _
                        end] => is_var v; destruct v
          | |- context [attrs_of ?h ?v !! ?x] =>
              destruct (attrs_of h v !! x) eqn:?
          | |- context [_valid_tasks ?e ?s] => rewrite (valid_tasks_eval e s)
          | |- context [listing ?h ?o ?l] => destruct (listing h o l) eqn:?
          end);
  py_feed.

(** X3: [run] returns a value only by dispatching: if it returns [v], then
    both strings were given, the schedule is a string, the builder was
    callable and returned an [Experiment], the schedule names a callable
    member of it, and [v] is what that member returned. *)
Theorem run_returns_only_by_dispatch invoke
    (experiment_fn output_dir schedule : value) (s : state) (v : value) :
  (run invoke experiment_fn output_dir schedule s).1 = Ret v →
  truthy output_dir = true
  ∧ truthy schedule = true
  ∧ is_callable (st_heap s) experiment_fn = true
  ∧ ∃ x experiment h1 task h2,
      schedule = VStr x
      ∧ invoke experiment_fn [] [("output_dir", output_dir)] (st_heap s)
        = (Ret experiment, h1)
      ∧ is_Experiment h1 experiment = true
      ∧ attrs_of h1 experiment !! x = Some task
      ∧ is_callable h1 task = true
      ∧ invoke task [] [] h1 = (Ret v, h2).
Proof.
  revert v.
  run_split invoke; intros w Hw; simpl in Hw; try discriminate.
  injection Hw as <-. repeat (split; [done|]).
  eexists _, _, _, _, _. repeat (split; [reflexivity|]).
  repeat (split; [eassumption|]). eassumption.
Qed.

Lemma run_returns_only_by_dispatch_witness :
  truthy (VStr "out") = true
  ∧ truthy (VStr "train") = true
  ∧ is_callable Demo.heap0 Demo.builder = true
  ∧ ∃ x experiment h1 task h2,
      VStr "train" = VStr x
      ∧ Demo.invoke Demo.builder [] [("output_dir", VStr "out")] Demo.heap0
        = (Ret experiment, h1)
      ∧ is_Experiment h1 experiment = true
      ∧ attrs_of h1 experiment !! x = Some task
      ∧ is_callable h1 task = true
      ∧ Demo.invoke task [] [] h1 = (Ret (VStr "trained"), h2).
Proof.
  apply (run_returns_only_by_dispatch Demo.invoke Demo.builder (VStr "out")
           (VStr "train") Demo.start (VStr "trained")).
  reflexivity.
Defined.

(** X4: whatever its arguments, [run] adds to the trace one of five things:
    nothing; the call of the builder; that call and one log line about the
    schedule; that call, the line about the schedule and a second line with a
    list of names; or that call and one call, without arguments, of a
    member. *)
Theorem run_trace_shapes invoke (experiment_fn output_dir schedule : value)
    (s : state) :
  ∃ new,
    st_trace (run invoke experiment_fn output_dir schedule s).2
    = st_trace s ++ new
    ∧ (new = []
       ∨ new = [EvCall experiment_fn [] [("output_dir", output_dir)]]
       ∨ (∃ fmt,
            (fmt = "Schedule references non-existent task %s"
             ∨ fmt = "Schedule references non-callable member %s")
            ∧ (new = [EvCall experiment_fn [] [("output_dir", output_dir)];
                      EvLogError fmt schedule]
               ∨ ∃ tasks,
                   new = [EvCall experiment_fn [] [("output_dir", output_dir)];
                          EvLogError fmt schedule;
                          EvLogError "Allowed values for this experiment are: %s"
                            (VList (VStr <$> tasks))]))
       ∨ ∃ task,
           new = [EvCall experiment_fn [] [("output_dir", output_dir)];
                  EvCall task [] []]).
Proof.
  run_split invoke; simpl; rewrite <- ?app_assoc; simpl;
    first [ by exists []; rewrite app_nil_r; auto
          | by eexists; split; [reflexivity|]; eauto 10 ].
Qed.


(** X6: [run] leaves the state it was given exactly as it is if and only if
    one of its three argument checks fails; once they pass, the builder is
    called and the trace shows it. *)
Theorem run_untouched_iff_argument_error invoke
    (experiment_fn output_dir schedule : value) (s : state) :
  (run invoke experiment_fn output_dir schedule s).2 = s
  ↔ truthy output_dir && truthy schedule
      && is_callable (st_heap s) experiment_fn = false.
Proof.
  run_split invoke; simpl; (split; [|done]); intros H;
    apply (f_equal (λ s', length (st_trace s'))) in H; simpl in H;
    rewrite ?length_app in H; simpl in H; lia.
Qed.

(** ** A schedule that is not a string *)

(** X7: a schedule that is truthy but not a string (a number, a list, an
    object) passes the argument checks, so the builder is called; the lookup
    of the member then raises [TypeError], with no line logged and no member
    called. *)
Theorem run_rejects_non_string_schedule invoke
    (experiment_fn output_dir schedule : value) (s : state)
    (experiment : value) (h1 : heap) :
  truthy output_dir = true →
  truthy schedule = true →
  (∀ x, schedule ≠ VStr x) →
  is_callable (st_heap s) experiment_fn = true →
  invoke experiment_fn [] [("output_dir", output_dir)] (st_heap s)
  = (Ret experiment, h1) →
  is_Experiment h1 experiment = true →
  ∃ e,
    run invoke experiment_fn output_dir schedule s
    = (Raise e,
       State h1 (st_trace s ++ [EvCall experiment_fn [] [("output_dir", output_dir)]]))
    ∧ exn_cls e = TypeError.
Proof.
  intros Hd Hs Hx Hc Hf He.
  destruct schedule as [| | |x| |]; try (by destruct (Hx x));
    try (by vm_compute in Hs);
    run_split invoke;
    first [ congruence | by eexists; split; [reflexivity|] ].
Qed.

Lemma run_rejects_non_string_schedule_witness :
  ∃ e,
    run Demo.invoke Demo.builder (VStr "out") (VInt 7) Demo.start
    = (Raise e,
       State (Demo.built Demo.heap0)
         ([] ++ [EvCall Demo.builder [] [("output_dir", VStr "out")]]))
    ∧ exn_cls e = TypeError.
Proof.
  apply (run_rejects_non_string_schedule Demo.invoke Demo.builder (VStr "out")
           (VInt 7) Demo.start Demo.handle (Demo.built Demo.heap0));
    first [ reflexivity | intros x; discriminate ].
Defined.

(** ** The listing and the dispatch together *)

(** X8: every non-empty name that [_valid_tasks] lists for the handle the
    builder returned is a schedule [run] accepts: [run] with that schedule
    calls the member of that name and ends as that call ends. *)
Theorem run_accepts_listed_task invoke (experiment_fn output_dir : value)
    (x : string) (s : state) (experiment : value) (h1 : heap)
    (t : list event) (tasks : list string) (s' : state) :
  truthy output_dir = true →
  truthy (VStr x) = true →
  is_callable (st_heap s) experiment_fn = true →
  invoke experiment_fn [] [("output_dir", output_dir)] (st_heap s)
  = (Ret experiment, h1) →
  is_Experiment h1 experiment = true →
  _valid_tasks experiment (State h1 t) = (Ret tasks, s') →
  x ∈ tasks →
  ∃ task,
    attrs_of h1 experiment !! x = Some task
    ∧ (run invoke experiment_fn output_dir (VStr x) s).1
      = (invoke task [] [] h1).1
    ∧ st_trace (run invoke experiment_fn output_dir (VStr x) s).2
      = st_trace s ++ [EvCall experiment_fn [] [("output_dir", output_dir)];
                       EvCall task [] []].
Proof.
  intros Hd Hs Hc Hf He Hv Hx.
  rewrite valid_tasks_eval in Hv. injection Hv as Hv _.
  apply listing_Ret in Hv as [-> _].
  apply valid_tasks_members in Hx as (_ & task & Ht & Hct & _).
  exists task. split; [done|].
  destruct (invoke task [] [] h1) as [r h2] eqn:Hr.
  rewrite (run_dispatch invoke _ _ _ _ _ _ _ _ _ Hd Hs Hc Hf He Ht Hct Hr).
  simpl. by rewrite <- app_assoc.
Qed.

Lemma run_accepts_listed_task_witness :
  ∃ task,
    attrs_of (Demo.built Demo.heap0) Demo.handle !! "train" = Some task
    ∧ (run Demo.invoke Demo.builder (VStr "out") (VStr "train") Demo.start).1
      = (Demo.invoke task [] [] (Demo.built Demo.heap0)).1
    ∧ st_trace (run Demo.invoke Demo.builder (VStr "out") (VStr "train")
                  Demo.start).2
      = [] ++ [EvCall Demo.builder [] [("output_dir", VStr "out")];
               EvCall task [] []].
Proof.
  apply (run_accepts_listed_task Demo.invoke Demo.builder (VStr "out") "train"
           Demo.start Demo.handle (Demo.built Demo.heap0) []
           ["again"; "train"] (State (Demo.built Demo.heap0) []));
    first [ reflexivity | apply (bool_decide_unpack _); reflexivity ].
Defined.

(** X9: the list of names [run] logs never contains the schedule it has just
    turned down. *)
Theorem run_never_lists_rejected_schedule invoke
    (experiment_fn output_dir schedule : value) (s : state) :
  ∃ new,
    st_trace (run invoke experiment_fn output_dir schedule s).2
    = st_trace s ++ new
    ∧ ∀ tasks,
        EvLogError "Allowed values for this experiment are: %s" (VList tasks) ∈ new →
        schedule ∉ tasks.
Proof.
  assert (Hin : ∀ h obj tasks x,
            listing h obj (merge_sort String.le (dir_of h obj)) = Ret tasks →
            VStr x ∈ VStr <$> tasks →
            ∃ member, attrs_of h obj !! x = Some member
                      ∧ is_callable h member = true).
  { intros h obj tasks x [-> _]%listing_Ret (y & [= <-] & Hy)%list_elem_of_fmap.
    apply valid_tasks_members in Hy as (_ & m & ? & ? & _). eauto. }
  run_split invoke; simpl; rewrite <- ?app_assoc; simpl;
    try (exists []; rewrite app_nil_r; split; [done|];
         by intros ? ?%elem_of_nil);
    (eexists; split; [reflexivity|]); intros tasks Hl;
    repeat (apply elem_of_cons in Hl as [Hl|Hl]; [try discriminate|]);
    try (by apply elem_of_nil in Hl);
    injection Hl as ->; intros Hl;
    match goal with
    | H : listing _ _ _ = Ret _ |- _ =>
        destruct (Hin _ _ _ _ H Hl) as (m & Hm & Hcm)
    end; congruence.
Qed.
